(** * External-dependency health checks of the DevTools backend

    A shallow embedding of [DevToolsBackendApi.listExternalDependencyDetails]
    and of its two private checkers, [fetchExternalDependency] and
    [pingExternalDependency]
    (plugins/devtools-backend/src/api/DevToolsBackendApi.ts).

    The three methods are [async]: they talk to the network and to the
    logger.  They are embedded as computations over an explicit trace of
    the effects performed so far, which may either return a value or throw
    a JavaScript [Error].  The network itself (node-fetch, the ping
    library) is a parameter of the development.

    [listInfo] is embedded too, over what it reads from the host: the [os]
    module, backstage.json and the lockfile. *)

From Stdlib Require Import List String Ascii ZArith Bool Lia DecimalString.
Import ListNotations.
Local Open Scope string_scope.

(** ** Data model *)

Module Endpoint.
(** Modelled from the spec: the [Endpoint] type is declared in
    @backstage/plugin-devtools-common.  [type] is kept a plain string, since
    the orchestrator's [switch] has a [default] branch for values other than
    'ping' and 'fetch'. *)
Record t : Type := mk { name : string; type : string; target : string }.
End Endpoint.

(** Modelled from the spec: the two-valued status of an
    [ExternalDependency], 'Healthy' or 'Unhealthy'. *)
Inductive Status : Type := Healthy | Unhealthy.

Module ExternalDependency.
(** Modelled from the spec: the [ExternalDependency] record of
    @backstage/plugin-devtools-common; [error] is the optional field. *)
Record t : Type := mk {
  name : string;
  type : string;
  target : string;
  status : Status;
  error : option string
}.
End ExternalDependency.

(** A JavaScript [Error]: only its [message] is read. *)
Record Error : Type := mkError { message : string }.

Module Response.
(** The part of node-fetch's [Response] that the code reads. *)
Record t : Type := mk { status : Z }.
End Response.

Module PingResponse.
(** The part of the ping library's [PingResponse] that the code reads. *)
Record t : Type := mk { alive : bool; packetLoss : string; output : string }.
End PingResponse.

(** How a promise of the outside world settles. *)
Inductive Settled (A : Type) : Type :=
| Fulfilled (value : A)
| Rejected (reason : Error).
Arguments Fulfilled {A} value.
Arguments Rejected {A} reason.

(** ** Effects *)

(** What the code does to the outside world, in the order it does it. *)
Inductive Event : Type :=
| LoggerInfo (msg : string)
| LoggerError (msg : string)
| Fetch (url : string)
| PingProbe (addr : string).

Definition Trace : Type := list Event.

(** How an awaited computation completes. *)
Inductive Completion (A : Type) : Type :=
| Return (value : A)
| Throw (err : Error).
Arguments Return {A} value.
Arguments Throw {A} err.

(** An asynchronous computation, run from the trace so far. *)
Definition Async (A : Type) : Type := Trace -> Trace * Completion A.

Definition ret {A : Type} (a : A) : Async A := fun t => (t, Return a).

Definition bind {A B : Type} (m : Async A) (k : A -> Async B) : Async B :=
  fun t =>
    match m t with
    | (t', Return a) => k a t'
    | (t', Throw e) => (t', Throw e)
    end.

(** [p.then(f)] and [p.catch(h)] on promises, as far as the code uses them:
    the value of the chain is awaited. *)
Definition then_ {A B : Type} (p : Async A) (f : A -> Async B) : Async B :=
  bind p f.

Definition catch_ {A : Type} (p : Async A) (h : Error -> Async A) : Async A :=
  fun t =>
    match p t with
    | (t', Return a) => (t', Return a)
    | (t', Throw e) => h e t'
    end.

Declare Scope async_scope.
Delimit Scope async_scope with async.
Notation "x <- m ;; k" := (bind m (fun x => k))
  (at level 100, m at next level, right associativity) : async_scope.
Notation "m ;; k" := (bind m (fun _ => k))
  (at level 100, right associativity) : async_scope.
Local Open Scope async_scope.

(** [a ?? b] *)
Definition nullish {A : Type} (a : option A) (b : A) : A :=
  match a with
  | Some v => v
  | None => b
  end.

(** [a ?? undefined]: an absent value stays absent, any string stays, the
    empty one too. *)
Definition nullish_undefined {A : Type} (a : option A) : option A :=
  match a with
  | Some v => Some v
  | None => None
  end.

(** A double quote, for the template strings that contain one. *)
Definition dquote : string := String (ascii_of_nat 34) EmptyString.

(** [`${n}`] for an integral number. *)
Definition number_to_string (n : Z) : string :=
  NilZero.string_of_int (Z.to_int n).

(** The logger is the winston [Logger] handed to the constructor; its
    methods record a line and return. *)
Definition logger_info (msg : string) : Async unit :=
  fun t => ((t ++ [LoggerInfo msg])%list, Return tt).

Definition logger_error (msg : string) : Async unit :=
  fun t => ((t ++ [LoggerError msg])%list, Return tt).

Definition is_ping (e : Endpoint.t) : bool := Endpoint.type e =? "ping".
Definition is_fetch (e : Endpoint.t) : bool := Endpoint.type e =? "fetch".

(** An endpoint type that the orchestrator's [switch] has a case for. *)
Definition recognized (e : Endpoint.t) : bool := is_ping e || is_fetch e.

Section Api.

(** The outside world: how [fetch(url)] and [ping.promise.probe(addr)]
    settle, given everything that happened before the call. *)
Variable net_fetch : Trace -> string -> Settled Response.t.
Variable net_probe : Trace -> string -> Settled PingResponse.t.

Definition await_settled {A : Type} (ev : Event) (s : Settled A) : Async A :=
  fun t =>
    match s with
    | Fulfilled v => ((t ++ [ev])%list, Return v)
    | Rejected e => ((t ++ [ev])%list, Throw e)
    end.

(** [fetch(url)] of node-fetch. *)
Definition fetch (url : string) : Async Response.t :=
  fun t => await_settled (Fetch url) (net_fetch t url) t.

(** [ping.promise.probe(addr)]. *)
Definition probe (addr : string) : Async PingResponse.t :=
  fun t => await_settled (PingProbe addr) (net_probe t addr) t.

(** [fetchExternalDependency]: the two callbacks assign the locals [status]
    and [error], both [undefined] at first; each callback is embedded as
    returning the pair of locals it leaves. *)
Definition fetchExternalDependency (endpoint : Endpoint.t)
  : Async ExternalDependency.t :=
  let status0 : option Status := None in
  let error0 : option string := None in
  locals <-
    catch_
      (then_ (fetch (Endpoint.target endpoint)) (fun res =>
         let status :=
           Some (if (Response.status res =? 200)%Z then Healthy else Unhealthy) in
         logger_info ("Fetch for " ++ Endpoint.name endpoint
                      ++ " resulted in status code " ++ dquote
                      ++ number_to_string (Response.status res) ++ dquote) ;;
         ret (status, error0)))
      (fun err =>
         logger_error ("Fetch failed for " ++ Endpoint.name endpoint
                       ++ " - " ++ message err) ;;
         ret (status0, Some (message err))) ;;
  let '(status, error) := locals in
  ret {| ExternalDependency.name := Endpoint.name endpoint;
         ExternalDependency.type := Endpoint.type endpoint;
         ExternalDependency.target := Endpoint.target endpoint;
         ExternalDependency.status := nullish status Unhealthy;
         ExternalDependency.error := nullish_undefined error |}.

(** The condition under which [pingExternalDependency] assigns [error]. *)
Definition loss_reported (pingResult : PingResponse.t) : bool :=
  (PingResponse.packetLoss pingResult =? "100.000")
  || (PingResponse.packetLoss pingResult =? "unknown").

(** [pingExternalDependency]: the probe is awaited outside any [try]. *)
Definition pingExternalDependency (endpoint : Endpoint.t)
  : Async ExternalDependency.t :=
  pingResult <- probe (Endpoint.target endpoint) ;;
  error <-
    (if loss_reported pingResult then
       logger_error ("Ping failed for " ++ Endpoint.name endpoint
                     ++ " - " ++ PingResponse.output pingResult) ;;
       ret (Some (if PingResponse.output pingResult =? ""
                  then Endpoint.target endpoint ++ " - Unknown"
                  else PingResponse.output pingResult))
     else ret None) ;;
  logger_info ("Ping results for " ++ Endpoint.name endpoint
               ++ ": " ++ PingResponse.output pingResult) ;;
  ret {| ExternalDependency.name := Endpoint.name endpoint;
         ExternalDependency.type := Endpoint.type endpoint;
         ExternalDependency.target := Endpoint.target endpoint;
         ExternalDependency.status :=
           if PingResponse.alive pingResult then Healthy else Unhealthy;
         ExternalDependency.error := nullish_undefined error |}.

Definition checking_message (endpoint : Endpoint.t) : string :=
  "Checking external dependency " ++ dquote ++ Endpoint.name endpoint
  ++ dquote ++ " at " ++ dquote ++ Endpoint.target endpoint ++ dquote.

(** The [for ... of] loop of [listExternalDependencyDetails], with the
    array [result] it pushes to; [default: return result] leaves the loop
    and the method. *)
Fixpoint for_of_endpoints (endpoints : list Endpoint.t)
  (result : list ExternalDependency.t) : Async (list ExternalDependency.t) :=
  match endpoints with
  | [] => ret result
  | endpoint :: rest =>
      logger_info (checking_message endpoint) ;;
      if is_ping endpoint then
        pingResult <- pingExternalDependency endpoint ;;
        for_of_endpoints rest (result ++ [pingResult])%list
      else if is_fetch endpoint then
        fetchResult <- fetchExternalDependency endpoint ;;
        for_of_endpoints rest (result ++ [fetchResult])%list
      else ret result
  end.

(** [listExternalDependencyDetails]; [endpoints] is what
    [config.getOptional('devTools.externalDependencies.endpoints')] gave,
    [None] for [undefined]. *)
Definition listExternalDependencyDetails (endpoints : option (list Endpoint.t))
  : Async (list ExternalDependency.t) :=
  let result : list ExternalDependency.t := [] in
  match endpoints with
  | None => ret result
  | Some endpoints => for_of_endpoints endpoints result
  end.

End Api.

(** ** Concrete worlds *)

(** Every request is answered with the same status code. *)
Definition fetch_answers (code : Z) : Trace -> string -> Settled Response.t :=
  fun _ _ => Fulfilled (Response.mk code).

(** Every request fails with the same error. *)
Definition fetch_fails (msg : string) : Trace -> string -> Settled Response.t :=
  fun _ _ => Rejected (mkError msg).

(** Every probe gives the same result. *)
Definition probe_answers (r : PingResponse.t)
  : Trace -> string -> Settled PingResponse.t :=
  fun _ _ => Fulfilled r.

(** The ping program cannot be run: the library rejects the promise. *)
Definition probe_fails (msg : string)
  : Trace -> string -> Settled PingResponse.t :=
  fun _ _ => Rejected (mkError msg).

Definition svc_a : Endpoint.t := Endpoint.mk "svc-a" "fetch" "http://ok.example".

(** The message with which node-fetch rejects a request to [svc_a] whose
    connection is refused. *)
Definition refused_message : string :=
  "request to http://ok.example/ failed, reason: "
  ++ "connect ECONNREFUSED 127.0.0.1:80".

Definition host_b : Endpoint.t := Endpoint.mk "host-b" "ping" "10.0.0.2".
Definition odd_c : Endpoint.t := Endpoint.mk "odd-c" "tcp" "10.0.0.3:5432".
Definition svc_d : Endpoint.t := Endpoint.mk "svc-d" "fetch" "http://d.example".

Definition reachable : PingResponse.t :=
  PingResponse.mk true "0.000" "64 bytes from 10.0.0.2: icmp_seq=1 ttl=64".

(** A reply was seen, and the summary line could not be read. *)
Definition alive_loss_unknown : PingResponse.t :=
  PingResponse.mk true "unknown" "".

Definition unreachable : PingResponse.t :=
  PingResponse.mk false "100.000" "".

(** Records that the runs below produce. *)
Definition svc_a_healthy : ExternalDependency.t :=
  ExternalDependency.mk "svc-a" "fetch" "http://ok.example" Healthy None.

Definition host_b_healthy : ExternalDependency.t :=
  ExternalDependency.mk "host-b" "ping" "10.0.0.2" Healthy None.

Definition host_b_unreachable : ExternalDependency.t :=
  ExternalDependency.mk "host-b" "ping" "10.0.0.2" Unhealthy
    (Some "10.0.0.2 - Unknown").

Definition host_b_healthy_with_error : ExternalDependency.t :=
  ExternalDependency.mk "host-b" "ping" "10.0.0.2" Healthy
    (Some "10.0.0.2 - Unknown").

(** The record and the endpoint name the same dependency. *)
Definition same_identity (e : Endpoint.t) (r : ExternalDependency.t) : Prop :=
  ExternalDependency.name r = Endpoint.name e
  /\ ExternalDependency.type r = Endpoint.type e
  /\ ExternalDependency.target r = Endpoint.target e.

(** ** What the runs of the orchestrator are measured against *)

(** The endpoints the loop gets through before the first type it has no
    case for. *)
Fixpoint recognized_prefix (endpoints : list Endpoint.t) : list Endpoint.t :=
  match endpoints with
  | [] => []
  | e :: rest => if recognized e then e :: recognized_prefix rest else []
  end.

(** A request or a probe, as opposed to a log line. *)
Definition network_call (ev : Event) : bool :=
  match ev with
  | Fetch _ | PingProbe _ => true
  | LoggerInfo _ | LoggerError _ => false
  end.

(** The event, if it is a call of [fetch] or of the probe, is a call on the
    target of one of the endpoints, by the means that the endpoint's type
    names.  What the HTTP client does within one call of [fetch], such as
    following a redirect, is not an event of its own. *)
Definition contacts_only (endpoints : list Endpoint.t) (ev : Event) : Prop :=
  match ev with
  | Fetch url =>
      exists e, In e endpoints /\ is_fetch e = true /\ Endpoint.target e = url
  | PingProbe addr =>
      exists e, In e endpoints /\ is_ping e = true /\ Endpoint.target e = addr
  | LoggerInfo _ | LoggerError _ => True
  end.

(** ** Host information: [listInfo] *)

Module PackageDependency.
(** Modelled from the spec: the [PackageDependency] record of
    @backstage/plugin-devtools-common, a package name and its versions
    joined into one string. *)
Record t : Type := mk { name : string; versions : string }.
End PackageDependency.

Module LockfileQueryEntry.
(** Modelled from the spec: an entry of the lockfile, declared in
    ../util/Lockfile; [listInfo] reads its [version]. *)
Record t : Type := mk { range : string; version : string }.
End LockfileQueryEntry.

Module Lockfile.
(** Modelled from the spec: the [Lockfile] class of ../util/Lockfile, as far
    as [listInfo] uses it: the package names in the order of the file
    ([keys]) and the entries of a name ([get], [None] for [undefined]), both
    read from one table. *)
Record t : Type := mk { packages : list (string * list LockfileQueryEntry.t) }.

Definition keys (lockfile : t) : list string := map fst (packages lockfile).

Fixpoint lookup (name : string)
  (table : list (string * list LockfileQueryEntry.t))
  : option (list LockfileQueryEntry.t) :=
  match table with
  | [] => None
  | (key, entries) :: rest =>
      if key =? name then Some entries else lookup name rest
  end.

Definition get (lockfile : t) (name : string)
  : option (list LockfileQueryEntry.t) :=
  lookup name (packages lockfile).
End Lockfile.

(** [s.add(v)] on a JavaScript [Set] of strings, kept as the list of its
    elements in insertion order. *)
Definition Set_add (s : list string) (v : string) : list string :=
  if existsb (String.eqb v) s then s else (s ++ [v])%list.

(** [new Set(values)] *)
Definition Set_new (values : list string) : list string :=
  fold_left Set_add values [].

(** [array.join(sep)] on strings. *)
Definition join (sep : string) (array : list string) : string :=
  String.concat sep array.

(** [n.startsWith('@backstage/')] *)
Definition is_backstage_package (n : string) : bool :=
  String.prefix "@backstage/" n.

(** A value that [JSON.parse] returns; the numbers are left to the section
    below. *)
#[local] Unset Elimination Schemes.
Inductive JsonValue (Number : Type) : Type :=
| JNull
| JBool (b : bool)
| JNumber (n : Number)
| JString (s : string)
| JArray (items : list (JsonValue Number))
| JObject (fields : list (string * JsonValue Number)).
#[local] Set Elimination Schemes.
Arguments JNull {Number}.
Arguments JBool {Number} b.
Arguments JNumber {Number} n.
Arguments JString {Number} s.
Arguments JArray {Number} items.
Arguments JObject {Number} fields.

(** Synchronous code that returns or throws. *)
Definition and_then {A B : Type} (c : Completion A) (k : A -> Completion B)
  : Completion B :=
  match c with
  | Return a => k a
  | Throw e => Throw e
  end.

(** [await p] for a promise of the outside world. *)
Definition await {A : Type} (p : Settled A) : Completion A :=
  match p with
  | Fulfilled v => Return v
  | Rejected e => Throw e
  end.

(** The [TypeError] of calling [.map] on [undefined]. *)
Definition undefined_map_error : Error :=
  mkError "Cannot read properties of undefined (reading 'map')".

(** The [TypeError] of reading [.version] of [null]. *)
Definition null_version_error : Error :=
  mkError "Cannot read properties of null (reading 'version')".

Section Info.

(** JavaScript numbers, and which of them are truthy (all but zero and
    NaN). *)
Variable Number : Type.
Variable number_truthy : Number -> bool.

Local Abbreviation Json := (JsonValue Number).

(** The truthiness that [&&] and [? :] test. *)
Definition truthy (v : Json) : bool :=
  match v with
  | JNull => false
  | JBool b => b
  | JNumber n => number_truthy n
  | JString s => negb (s =? "")
  | JArray _ => true
  | JObject _ => true
  end.

Fixpoint field (key : string) (fields : list (string * Json)) : option Json :=
  match fields with
  | [] => None
  | (k, v) :: rest => if k =? key then Some v else field key rest
  end.

(** [v.version] for a parsed value [v]: the field of an object, [undefined]
    ([None]) on the other values that have properties, a [TypeError] on
    [null]. *)
Definition get_version (v : Json) : Completion (option Json) :=
  match v with
  | JNull => Throw null_version_error
  | JObject fields => Return (field "version" fields)
  | JBool _ | JNumber _ | JString _ | JArray _ => Return None
  end.

(** Modelled from the spec: the [DevToolsInfo] record of
    @backstage/plugin-devtools-common.  [backstageVersion] holds whatever
    value the code puts there. *)
Record DevToolsInfo : Type := mkDevToolsInfo {
  operatingSystem : string;
  nodeJsVersion : string;
  backstageVersion : Json;
  dependencies : list PackageDependency.t
}.

(** What [listInfo] reads from the host: the [os] module and
    [process.version], the file backstage.json of the target root
    ([fs.existsSync], [fs.readFile] and the buffer's [toString]),
    [JSON.parse], and [Lockfile.load] on the yarn.lock of the target root. *)
Record Host : Type := mkHost {
  os_type : string;
  os_release : string;
  os_platform : string;
  os_arch : string;
  process_version : string;
  fs_existsSync : bool;
  fs_readFile : Settled string;
  JSON_parse : string -> Completion Json;
  Lockfile_load : Settled Lockfile.t
}.

(** The loop over [deps] of [listInfo], with the array it pushes to;
    [lockfile.get(dep)!] is followed by [.map], which throws on
    [undefined]. *)
Fixpoint for_of_deps (lockfile : Lockfile.t) (deps : list string)
  (infoDependencies : list PackageDependency.t)
  : Completion (list PackageDependency.t) :=
  match deps with
  | [] => Return infoDependencies
  | dep :: rest =>
      match Lockfile.get lockfile dep with
      | None => Throw undefined_map_error
      | Some entries =>
          let versions := Set_new (map LockfileQueryEntry.version entries) in
          let infoDependency :=
            {| PackageDependency.name := dep;
               PackageDependency.versions := join ", " versions |} in
          for_of_deps lockfile rest (infoDependencies ++ [infoDependency])%list
      end
  end.

(** [backstageJson && backstageJson.version ? backstageJson.version : 'N/A'],
    [None] standing for the [undefined] that [backstageJson] starts with. *)
Definition backstage_version (backstageJson : option Json) : Completion Json :=
  match backstageJson with
  | None => Return (JString "N/A")
  | Some json =>
      if truthy json then
        and_then (get_version json) (fun version =>
          match version with
          | Some v => if truthy v then Return v else Return (JString "N/A")
          | None => Return (JString "N/A")
          end)
      else Return (JString "N/A")
  end.

(** [listInfo] *)
Definition listInfo (host : Host) : Completion DevToolsInfo :=
  let operatingSystem :=
    os_type host ++ " " ++ os_release host ++ " - " ++ os_platform host
    ++ "/" ++ os_arch host in
  let nodeJsVersion := process_version host in
  and_then
    (if fs_existsSync host then
       and_then (await (fs_readFile host)) (fun buffer =>
       and_then (JSON_parse host buffer) (fun parsed =>
       Return (Some parsed)))
     else Return None) (fun backstageJson =>
  and_then (await (Lockfile_load host)) (fun lockfile =>
  let deps := filter is_backstage_package (Lockfile.keys lockfile) in
  and_then (for_of_deps lockfile deps []) (fun infoDependencies =>
  and_then (backstage_version backstageJson) (fun version =>
  Return {| operatingSystem := nullish (Some operatingSystem) "N/A";
            nodeJsVersion := nullish (Some nodeJsVersion) "N/A";
            backstageVersion := version;
            dependencies := infoDependencies |})))).

(** What the first part of [listInfo] leaves in [backstageJson] when it does
    not throw: [undefined] without the file, the parsed content with it. *)
Definition backstage_json_read (host : Host) (backstageJson : option Json)
  : Prop :=
  (fs_existsSync host = false /\ backstageJson = None)
  \/ (fs_existsSync host = true
      /\ exists text json,
           fs_readFile host = Fulfilled text
           /\ JSON_parse host text = Return json
           /\ backstageJson = Some json).

End Info.

Arguments operatingSystem {Number} d.
Arguments nodeJsVersion {Number} d.
Arguments backstageVersion {Number} d.
Arguments dependencies {Number} d.

(** ** Concrete hosts *)

(** Integers for the numbers, in the runs below. *)
Definition Z_truthy (n : Z) : bool := negb (n =? 0)%Z.

Definition yarn_lock : Lockfile.t :=
  Lockfile.mk
    [("@backstage/config",
      [LockfileQueryEntry.mk "^1.0.0" "1.0.7"; LockfileQueryEntry.mk "^1.0.7" "1.0.7"]);
     ("lodash", [LockfileQueryEntry.mk "^4.17.21" "4.17.21"]);
     ("@backstage/types",
      [LockfileQueryEntry.mk "^1.0.0" "1.0.2"; LockfileQueryEntry.mk "^0.1.3" "0.1.3";
       LockfileQueryEntry.mk "^1.0.2" "1.0.2"])].

(** The text of a backstage.json. *)
Definition backstage_json_text : string :=
  "{" ++ dquote ++ "version" ++ dquote ++ ": "
  ++ dquote ++ "1.12.0" ++ dquote ++ "}".

(** A parser that knows one file content. *)
Definition parse_backstage_json (content : string) : Completion (JsonValue Z) :=
  if content =? backstage_json_text
  then Return (JObject [("version", JString "1.12.0")])
  else Throw (mkError "Unexpected token in JSON").

Definition portal_host : Host Z :=
  mkHost Z "Linux" "5.15.0" "linux" "x64" "v18.16.0" true
    (Fulfilled backstage_json_text) parse_backstage_json (Fulfilled yarn_lock).

Definition config_dependency : PackageDependency.t :=
  PackageDependency.mk "@backstage/config" "1.0.7".

Definition types_dependency : PackageDependency.t :=
  PackageDependency.mk "@backstage/types" "1.0.2, 0.1.3".

(** What [listInfo] returns on [portal_host]. *)
Definition portal_info : DevToolsInfo Z :=
  mkDevToolsInfo Z "Linux 5.15.0 - linux/x64" "v18.16.0" (JString "1.12.0")
    [config_dependency; types_dependency].

Definition host_without_backstage_json : Host Z :=
  mkHost Z "Linux" "5.15.0" "linux" "x64" "v18.16.0" false
    (Rejected (mkError "ENOENT")) parse_backstage_json (Fulfilled yarn_lock).

Definition host_with_broken_backstage_json : Host Z :=
  mkHost Z "Linux" "5.15.0" "linux" "x64" "v18.16.0" true
    (Fulfilled "{") parse_backstage_json (Fulfilled yarn_lock).

(** The version line of a package, as the loop computes it. *)
Definition listed (lockfile : Lockfile.t) (d : PackageDependency.t) : Prop :=
  exists entries,
    Lockfile.get lockfile (PackageDependency.name d) = Some entries
    /\ PackageDependency.versions d
       = join ", " (Set_new (map LockfileQueryEntry.version entries)).

(** ** Properties *)

Section Properties.

Variable net_fetch : Trace -> string -> Settled Response.t.
Variable net_probe : Trace -> string -> Settled PingResponse.t.

Local Abbreviation fetchED := (fetchExternalDependency net_fetch).
Local Abbreviation pingED := (pingExternalDependency net_probe).
Local Abbreviation for_of := (for_of_endpoints net_fetch net_probe).
Local Abbreviation listEDD := (listExternalDependencyDetails net_fetch net_probe).

Ltac run_checker H :=
  cbv [fetchExternalDependency pingExternalDependency fetch probe
       await_settled then_ catch_ bind ret logger_info logger_error nullish
       nullish_undefined];
  rewrite H.

Lemma fetch_fulfilled (endpoint : Endpoint.t) (res : Response.t) (t : Trace) :
  net_fetch t (Endpoint.target endpoint) = Fulfilled res ->
  exists t',
    fetchED endpoint t =
    (t', Return {| ExternalDependency.name := Endpoint.name endpoint;
                   ExternalDependency.type := Endpoint.type endpoint;
                   ExternalDependency.target := Endpoint.target endpoint;
                   ExternalDependency.status :=
                     if (Response.status res =? 200)%Z then Healthy else Unhealthy;
                   ExternalDependency.error := None |}).
Proof.
  intros H. run_checker H. eexists. reflexivity.
Qed.

Lemma fetch_rejected (endpoint : Endpoint.t) (err : Error) (t : Trace) :
  net_fetch t (Endpoint.target endpoint) = Rejected err ->
  exists t',
    fetchED endpoint t =
    (t', Return {| ExternalDependency.name := Endpoint.name endpoint;
                   ExternalDependency.type := Endpoint.type endpoint;
                   ExternalDependency.target := Endpoint.target endpoint;
                   ExternalDependency.status := Unhealthy;
                   ExternalDependency.error := Some (message err) |}).
Proof.
  intros H. run_checker H. eexists. reflexivity.
Qed.

(** The fetch checker returns whatever the network does. *)
Lemma fetch_returns (endpoint : Endpoint.t) (t : Trace) :
  exists t' r, fetchED endpoint t = (t', Return r) /\ same_identity endpoint r.
Proof.
  destruct (net_fetch t (Endpoint.target endpoint)) as [res | err] eqn:H.
  - destruct (fetch_fulfilled endpoint res t H) as [t' E].
    eexists _, _. split; [exact E | repeat split].
  - destruct (fetch_rejected endpoint err t H) as [t' E].
    eexists _, _. split; [exact E | repeat split].
Qed.

Lemma ping_fulfilled (endpoint : Endpoint.t) (pingResult : PingResponse.t)
  (t : Trace) :
  net_probe t (Endpoint.target endpoint) = Fulfilled pingResult ->
  exists t',
    pingED endpoint t =
    (t', Return {| ExternalDependency.name := Endpoint.name endpoint;
                   ExternalDependency.type := Endpoint.type endpoint;
                   ExternalDependency.target := Endpoint.target endpoint;
                   ExternalDependency.status :=
                     if PingResponse.alive pingResult then Healthy else Unhealthy;
                   ExternalDependency.error :=
                     if loss_reported pingResult
                     then Some (if PingResponse.output pingResult =? ""
                                then Endpoint.target endpoint ++ " - Unknown"
                                else PingResponse.output pingResult)
                     else None |}).
Proof.
  intros H. run_checker H.
  destruct (loss_reported pingResult); eexists; reflexivity.
Qed.

Lemma ping_rejected (endpoint : Endpoint.t) (err : Error) (t : Trace) :
  net_probe t (Endpoint.target endpoint) = Rejected err ->
  pingED endpoint t =
  ((t ++ [PingProbe (Endpoint.target endpoint)])%list, Throw err).
Proof.
  intros H. run_checker H. reflexivity.
Qed.

(** A ping record comes from a probe that was fulfilled. *)
Lemma ping_returned (endpoint : Endpoint.t) (t t' : Trace)
  (r : ExternalDependency.t) :
  pingED endpoint t = (t', Return r) ->
  exists pingResult,
    net_probe t (Endpoint.target endpoint) = Fulfilled pingResult
    /\ same_identity endpoint r
    /\ ExternalDependency.status r =
       (if PingResponse.alive pingResult then Healthy else Unhealthy)
    /\ ExternalDependency.error r =
       (if loss_reported pingResult
        then Some (if PingResponse.output pingResult =? ""
                   then Endpoint.target endpoint ++ " - Unknown"
                   else PingResponse.output pingResult)
        else None).
Proof.
  intros E.
  destruct (net_probe t (Endpoint.target endpoint)) as [pr | err] eqn:H.
  - destruct (ping_fulfilled endpoint pr t H) as [t1 E1].
    rewrite E1 in E. injection E as _ <-.
    exists pr. repeat split.
  - rewrite (ping_rejected endpoint err t H) in E. discriminate E.
Qed.

Lemma loss_reported_iff (pingResult : PingResponse.t) :
  loss_reported pingResult = true <->
  PingResponse.packetLoss pingResult = "100.000"
  \/ PingResponse.packetLoss pingResult = "unknown".
Proof.
  unfold loss_reported. rewrite orb_true_iff, !String.eqb_eq. reflexivity.
Qed.

Lemma fallback_not_empty (target : string) : target ++ " - Unknown" <> "".
Proof.
  destruct target; discriminate.
Qed.

(** *** The loop *)

(** One turn of the loop. *)
Lemma for_of_cons (e : Endpoint.t) (rest : list Endpoint.t)
  (result : list ExternalDependency.t) (t : Trace) :
  for_of (e :: rest) result t =
  let t0 := (t ++ [LoggerInfo (checking_message e)])%list in
  if is_ping e then
    match pingED e t0 with
    | (t1, Return r) => for_of rest (result ++ [r])%list t1
    | (t1, Throw err) => (t1, Throw err)
    end
  else if is_fetch e then
    match fetchED e t0 with
    | (t1, Return r) => for_of rest (result ++ [r])%list t1
    | (t1, Throw err) => (t1, Throw err)
    end
  else (t0, Return result).
Proof.
  cbn [for_of_endpoints]. unfold bind, logger_info, ret.
  destruct (is_ping e), (is_fetch e); reflexivity.
Qed.

(** An unrecognized type ends the loop with the array as it stands. *)
Lemma for_of_unrecognized (e : Endpoint.t) (rest : list Endpoint.t)
  (result : list ExternalDependency.t) (t : Trace) :
  recognized e = false ->
  for_of (e :: rest) result t =
  ((t ++ [LoggerInfo (checking_message e)])%list, Return result).
Proof.
  unfold recognized. intros H. apply orb_false_iff in H as [Hp Hf].
  rewrite for_of_cons, Hp, Hf. reflexivity.
Qed.

(** Running the loop over [before ++ rest] is running it over [before] and
    carrying on with [rest], as long as [before] has only recognized types. *)
Lemma for_of_app (before rest : list Endpoint.t) :
  forallb recognized before = true ->
  forall (result : list ExternalDependency.t) (t : Trace),
    for_of (before ++ rest)%list result t =
    match for_of before result t with
    | (t', Return result') => for_of rest result' t'
    | (t', Throw err) => (t', Throw err)
    end.
Proof.
  induction before as [| e before IH]; intros Hrec result t.
  - reflexivity.
  - cbn [forallb] in Hrec. apply andb_true_iff in Hrec as [He Hrec].
    rewrite <- app_comm_cons, !for_of_cons. cbv zeta.
    unfold recognized in He.
    destruct (is_ping e) eqn:Hp.
    + destruct (pingED e _) as [t1 [r | err]]; [apply IH, Hrec | reflexivity].
    + cbn [orb] in He. rewrite He.
      destruct (fetchED e _) as [t1 [r | err]]; [apply IH, Hrec | reflexivity].
Qed.

(** A rejected probe on a ping endpoint ends the loop by throwing: the
    array built so far is lost. *)
Lemma for_of_probe_rejected (e : Endpoint.t) (rest : list Endpoint.t)
  (result : list ExternalDependency.t) (t : Trace) (err : Error) :
  is_ping e = true ->
  net_probe (t ++ [LoggerInfo (checking_message e)])%list (Endpoint.target e)
    = Rejected err ->
  for_of (e :: rest) result t =
  ((t ++ [LoggerInfo (checking_message e)]
      ++ [PingProbe (Endpoint.target e)])%list, Throw err).
Proof.
  intros Hp Hrej. rewrite for_of_cons, Hp. cbv zeta.
  rewrite (ping_rejected e err _ Hrej), <- app_assoc. reflexivity.
Qed.

(** When the loop returns over recognized endpoints, it has pushed one
    record per endpoint, in the order of the endpoints. *)
Lemma for_of_identity (endpoints : list Endpoint.t) :
  forallb recognized endpoints = true ->
  forall (result out : list ExternalDependency.t) (t t' : Trace),
    for_of endpoints result t = (t', Return out) ->
    exists added,
      out = (result ++ added)%list /\ Forall2 same_identity endpoints added.
Proof.
  induction endpoints as [| e endpoints IH]; intros Hrec result out t t' E.
  - injection E as _ <-. exists []. rewrite app_nil_r. split; constructor.
  - cbn [forallb] in Hrec. apply andb_true_iff in Hrec as [He Hrec].
    rewrite for_of_cons in E. cbv zeta in E. unfold recognized in He.
    destruct (is_ping e) eqn:Hp.
    + destruct (pingED e _) as [t1 [r | err]] eqn:Er; [| discriminate E].
      destruct (ping_returned _ _ _ _ Er) as (pr & _ & Hid & _).
      destruct (IH Hrec _ _ _ _ E) as (added & -> & Hall).
      exists (r :: added). rewrite <- app_assoc. split; [reflexivity |].
      constructor; assumption.
    + cbn [orb] in He. rewrite He in E.
      destruct (fetch_returns e (t ++ [LoggerInfo (checking_message e)])%list)
        as (t1 & r & Er & Hid).
      rewrite Er in E.
      destruct (IH Hrec _ _ _ _ E) as (added & -> & Hall).
      exists (r :: added). rewrite <- app_assoc. split; [reflexivity |].
      constructor; assumption.
Qed.

(** The loop returns when every probe it awaits is fulfilled. *)
Lemma for_of_returns (endpoints : list Endpoint.t) :
  (forall (h : Trace) (e : Endpoint.t),
      In e endpoints -> is_ping e = true ->
      exists pr, net_probe h (Endpoint.target e) = Fulfilled pr) ->
  forall (result : list ExternalDependency.t) (t : Trace),
    exists t' out, for_of endpoints result t = (t', Return out).
Proof.
  induction endpoints as [| e endpoints IH]; intros Hprobe result t.
  - eexists _, _. reflexivity.
  - assert (Hrest : forall h e', In e' endpoints -> is_ping e' = true ->
              exists pr, net_probe h (Endpoint.target e') = Fulfilled pr)
      by (intros h e' Hin; apply Hprobe; right; exact Hin).
    rewrite for_of_cons. cbv zeta.
    destruct (is_ping e) eqn:Hp.
    + destruct (Hprobe (t ++ [LoggerInfo (checking_message e)])%list e
                  (or_introl eq_refl) Hp) as [pr Hpr].
      destruct (ping_fulfilled e pr _ Hpr) as [t1 ->].
      apply IH, Hrest.
    + destruct (is_fetch e).
      * destruct (fetch_returns e (t ++ [LoggerInfo (checking_message e)])%list)
          as (t1 & r & -> & _).
        apply IH, Hrest.
      * eexists _, _. reflexivity.
Qed.

(** Ordering, for the runs in which no probe is rejected: [N] recognized
    endpoints give [N] records, the [i]-th record naming the [i]-th
    endpoint. *)
Lemma ordering_when_probes_are_fulfilled (endpoints : list Endpoint.t)
  (t : Trace) :
  forallb recognized endpoints = true ->
  (forall (h : Trace) (e : Endpoint.t),
      In e endpoints -> is_ping e = true ->
      exists pr, net_probe h (Endpoint.target e) = Fulfilled pr) ->
  exists t' out,
    listEDD (Some endpoints) t = (t', Return out)
    /\ List.length out = List.length endpoints
    /\ Forall2 same_identity endpoints out.
Proof.
  intros Hrec Hprobe. cbn [listExternalDependencyDetails].
  destruct (for_of_returns endpoints Hprobe [] t) as (t' & out & E).
  destruct (for_of_identity endpoints Hrec _ _ _ _ E) as (added & -> & Hall).
  exists t', added. cbn [app] in E |- *. split; [exact E |].
  split; [symmetry; eapply Forall2_length; exact Hall | exact Hall].
Qed.

(** *** The orchestrator *)

(** C1.  When the loop reaches an endpoint whose type is neither 'ping' nor
    'fetch', the method returns at once with the records of the endpoints
    before it.  The run over [before ++ e :: after] is the run over [before]
    followed by the one log line that announces [e]: no endpoint of [after]
    is logged, checked or given a record, whatever [after] is.  The list it
    returns holds exactly one record per endpoint of [before], in order, and
    none for [e].  It does return when the probes of the ping endpoints of
    [before] are fulfilled. *)
Theorem unrecognized_type_truncates (before after : list Endpoint.t)
  (e : Endpoint.t) (t : Trace) :
  forallb recognized before = true ->
  recognized e = false ->
  listEDD (Some (before ++ e :: after)%list) t =
  match listEDD (Some before) t with
  | (t', Return result) =>
      ((t' ++ [LoggerInfo (checking_message e)])%list, Return result)
  | (t', Throw err) => (t', Throw err)
  end
  /\ (forall t' result,
        listEDD (Some (before ++ e :: after)%list) t = (t', Return result) ->
        List.length result = List.length before
        /\ Forall2 same_identity before result)
  /\ ((forall (h : Trace) (e' : Endpoint.t),
          In e' before -> is_ping e' = true ->
          exists pr, net_probe h (Endpoint.target e') = Fulfilled pr) ->
      exists t' result,
        listEDD (Some (before ++ e :: after)%list) t = (t', Return result)
        /\ List.length result = List.length before
        /\ Forall2 same_identity before result).
Proof.
  intros Hbefore He.
  assert (Heq :
    listEDD (Some (before ++ e :: after)%list) t =
    match listEDD (Some before) t with
    | (t', Return result) =>
        ((t' ++ [LoggerInfo (checking_message e)])%list, Return result)
    | (t', Throw err) => (t', Throw err)
    end).
  { cbn [listExternalDependencyDetails].
    rewrite (for_of_app before (e :: after) Hbefore).
    destruct (for_of before [] t) as [t' [result | err]]; [| reflexivity].
    apply for_of_unrecognized, He. }
  assert (Hid : forall t' result,
            listEDD (Some (before ++ e :: after)%list) t = (t', Return result) ->
            List.length result = List.length before
            /\ Forall2 same_identity before result).
  { intros t' result E. rewrite Heq in E.
    cbn [listExternalDependencyDetails] in E.
    destruct (for_of before [] t) as [t1 [res | err]] eqn:Eb;
      [| discriminate E].
    injection E as _ <-.
    destruct (for_of_identity before Hbefore _ _ _ _ Eb) as (added & -> & Hall).
    cbn [app]. split; [symmetry; eapply Forall2_length |]; exact Hall. }
  split; [exact Heq | split; [exact Hid |]].
  intros Hprobe.
  destruct (for_of_returns before Hprobe [] t) as (t1 & out & Eb).
  assert (E : listEDD (Some (before ++ e :: after)%list) t
              = ((t1 ++ [LoggerInfo (checking_message e)])%list, Return out)).
  { rewrite Heq. cbn [listExternalDependencyDetails]. rewrite Eb.
    reflexivity. }
  exists (t1 ++ [LoggerInfo (checking_message e)])%list, out.
  split; [exact E | exact (Hid _ _ E)].
Qed.

(** C9.  With no endpoint list configured, or with an empty one, the method
    returns the empty array, throws nothing and leaves the trace as it was:
    no request, no probe, no log line. *)
Theorem nothing_configured_nothing_checked :
  (forall t : Trace, listEDD None t = (t, Return []))
  /\ (forall t : Trace, listEDD (Some []) t = (t, Return [])).
Proof.
  split; intros t; reflexivity.
Qed.

(** C4, at the input where it fails.  All endpoints up to and including [e]
    have recognized types; the ones before [e] have been checked and have
    given [result]; the probe of the ping endpoint [e] is rejected.  The
    method then throws the probe's error: it returns no list at all, so
    neither [result] nor a record for [e] or [after] reaches the caller. *)
Theorem rejected_probe_aborts_the_run (before after : list Endpoint.t)
  (e : Endpoint.t) (t t1 : Trace) (result : list ExternalDependency.t)
  (err : Error) :
  forallb recognized (before ++ e :: after)%list = true ->
  is_ping e = true ->
  listEDD (Some before) t = (t1, Return result) ->
  net_probe (t1 ++ [LoggerInfo (checking_message e)])%list (Endpoint.target e)
    = Rejected err ->
  listEDD (Some (before ++ e :: after)%list) t =
  ((t1 ++ [LoggerInfo (checking_message e)]
       ++ [PingProbe (Endpoint.target e)])%list, Throw err).
Proof.
  intros Hall Hp Hrun Hrej. cbn [listExternalDependencyDetails] in *.
  rewrite forallb_app in Hall. apply andb_true_iff in Hall as [Hbefore _].
  rewrite (for_of_app before (e :: after) Hbefore), Hrun.
  apply for_of_probe_rejected; assumption.
Qed.

(** *** The fetch checker *)

(** C5.  When the GET is answered, the record has no [error], and its status
    is [Healthy] for the status code 200 and [Unhealthy] for any other. *)
Theorem fetch_classification (endpoint : Endpoint.t) (res : Response.t)
  (t : Trace) :
  net_fetch t (Endpoint.target endpoint) = Fulfilled res ->
  exists t' r,
    fetchED endpoint t = (t', Return r)
    /\ ExternalDependency.error r = None
    /\ (Response.status res = 200%Z -> ExternalDependency.status r = Healthy)
    /\ (Response.status res <> 200%Z ->
        ExternalDependency.status r = Unhealthy).
Proof using net_fetch.
  intros H. destruct (fetch_fulfilled endpoint res t H) as [t' E].
  eexists _, _. split; [exact E |]. cbn.
  destruct (Z.eqb_spec (Response.status res) 200); repeat split;
    intros; congruence.
Qed.

(** C8.  When the GET fails in transport, node-fetch rejects the request
    with an error whose message tells the failure, a non-empty text.  The
    checker catches it: it throws nothing and returns an [Unhealthy] record
    whose [error] is present and is that message, unchanged, hence a
    non-empty string. *)
Theorem fetch_failure_is_caught (endpoint : Endpoint.t) (err : Error)
  (t : Trace) :
  net_fetch t (Endpoint.target endpoint) = Rejected err ->
  message err <> "" ->
  exists t' r,
    fetchED endpoint t = (t', Return r)
    /\ ExternalDependency.status r = Unhealthy
    /\ ExternalDependency.error r = Some (message err)
    /\ exists s, ExternalDependency.error r = Some s /\ s <> "".
Proof using net_fetch.
  intros H Hmsg. destruct (fetch_rejected endpoint err t H) as [t' E].
  eexists _, _. split; [exact E |]. cbn.
  split; [reflexivity | split; [reflexivity |]].
  exists (message err). split; [reflexivity | exact Hmsg].
Qed.

(** *** The ping checker *)

(** C3, at the input where it fails.  When the probe is rejected, the ping
    checker throws the probe's error and returns no record. *)
Theorem ping_probe_failure_escapes (endpoint : Endpoint.t) (err : Error)
  (t : Trace) :
  net_probe t (Endpoint.target endpoint) = Rejected err ->
  pingED endpoint t =
  ((t ++ [PingProbe (Endpoint.target endpoint)])%list, Throw err)
  /\ forall t' r, pingED endpoint t <> (t', Return r).
Proof using net_probe.
  intros H. rewrite (ping_rejected endpoint err t H).
  split; [reflexivity | intros t' r; discriminate].
Qed.

(** C6.  When the probe reports a [packetLoss] of "100.000" or "unknown",
    [error] is "<target> - Unknown" for an empty [output] and the [output]
    otherwise, whatever [alive] is; for any other [packetLoss], [error] is
    absent. *)
Theorem ping_error_rule (endpoint : Endpoint.t) (pingResult : PingResponse.t)
  (t : Trace) :
  net_probe t (Endpoint.target endpoint) = Fulfilled pingResult ->
  exists t' r,
    pingED endpoint t = (t', Return r)
    /\ (PingResponse.packetLoss pingResult = "100.000"
        \/ PingResponse.packetLoss pingResult = "unknown" ->
        (PingResponse.output pingResult = "" ->
         ExternalDependency.error r
         = Some (Endpoint.target endpoint ++ " - Unknown"))
        /\ (PingResponse.output pingResult <> "" ->
            ExternalDependency.error r
            = Some (PingResponse.output pingResult)))
    /\ (PingResponse.packetLoss pingResult <> "100.000" ->
        PingResponse.packetLoss pingResult <> "unknown" ->
        ExternalDependency.error r = None).
Proof using net_probe.
  intros H. destruct (ping_fulfilled endpoint pingResult t H) as [t' E].
  eexists _, _. split; [exact E |]. cbn. split.
  - intros Hloss. apply loss_reported_iff in Hloss. rewrite Hloss.
    destruct (String.eqb_spec (PingResponse.output pingResult) "");
      split; intros; congruence.
  - intros H1 H2. destruct (loss_reported pingResult) eqn:Hloss;
      [| reflexivity].
    apply loss_reported_iff in Hloss.
    destruct Hloss as [Hl | Hl]; [elim (H1 Hl) | elim (H2 Hl)].
Qed.

(** C7.  When the probe completes, the status is [Healthy] if and only if
    [alive] is true, and [Unhealthy] otherwise, whatever [packetLoss] and
    [output] are. *)
Theorem ping_status_follows_alive (endpoint : Endpoint.t)
  (pingResult : PingResponse.t) (t : Trace) :
  net_probe t (Endpoint.target endpoint) = Fulfilled pingResult ->
  exists t' r,
    pingED endpoint t = (t', Return r)
    /\ (ExternalDependency.status r = Healthy
        <-> PingResponse.alive pingResult = true)
    /\ (PingResponse.alive pingResult = false ->
        ExternalDependency.status r = Unhealthy).
Proof using net_probe.
  intros H. destruct (ping_fulfilled endpoint pingResult t H) as [t' E].
  eexists _, _. split; [exact E |]. cbn.
  destruct (PingResponse.alive pingResult); repeat split;
    intros; congruence.
Qed.

(** C10.  An [error] set by the ping checker is never the empty string: it
    is the fallback "<target> - Unknown" when the probe's [output] is empty,
    and the non-empty [output] otherwise. *)
Theorem ping_error_is_not_empty (endpoint : Endpoint.t) (t t' : Trace)
  (r : ExternalDependency.t) (s : string) :
  pingED endpoint t = (t', Return r) ->
  ExternalDependency.error r = Some s ->
  s <> ""
  /\ exists pingResult,
       net_probe t (Endpoint.target endpoint) = Fulfilled pingResult
       /\ ((PingResponse.output pingResult = ""
            /\ s = Endpoint.target endpoint ++ " - Unknown")
           \/ (PingResponse.output pingResult <> ""
               /\ s = PingResponse.output pingResult)).
Proof using net_probe.
  intros E Hs.
  destruct (ping_returned endpoint t t' r E) as (pr & Hpr & _ & _ & Herr).
  rewrite Herr in Hs. destruct (loss_reported pr); [| discriminate Hs].
  injection Hs as <-.
  destruct (String.eqb_spec (PingResponse.output pr) "") as [Hout | Hout].
  - split; [apply fallback_not_empty |]. exists pr. auto.
  - split; [exact Hout |]. exists pr. auto.
Qed.

(** *** The records *)

(** C2, amended.  A record made by either checker carries an [error] only
    if its status is [Unhealthy], or if it is a ping record whose probe
    reported [alive] together with a [packetLoss] of "100.000" or
    "unknown". *)
Theorem error_only_when_unhealthy_or_loss_reported (endpoint : Endpoint.t)
  (t t' : Trace) (r : ExternalDependency.t) :
  fetchED endpoint t = (t', Return r) \/ pingED endpoint t = (t', Return r) ->
  ExternalDependency.error r <> None ->
  ExternalDependency.status r = Unhealthy
  \/ (pingED endpoint t = (t', Return r)
      /\ exists pingResult,
           net_probe t (Endpoint.target endpoint) = Fulfilled pingResult
           /\ PingResponse.alive pingResult = true
           /\ (PingResponse.packetLoss pingResult = "100.000"
               \/ PingResponse.packetLoss pingResult = "unknown")).
Proof.
  intros [E | E] Herr.
  - left.
    destruct (net_fetch t (Endpoint.target endpoint)) as [res | err] eqn:H.
    + destruct (fetch_fulfilled endpoint res t H) as [t1 E1].
      rewrite E1 in E. injection E as _ <-. cbn in Herr. congruence.
    + destruct (fetch_rejected endpoint err t H) as [t1 E1].
      rewrite E1 in E. injection E as _ <-. reflexivity.
  - destruct (ping_returned endpoint t t' r E) as (pr & Hpr & _ & Hst & He).
    destruct (PingResponse.alive pr) eqn:Halive; [right | left; exact Hst].
    split; [exact E |]. exists pr. repeat split; try assumption.
    apply loss_reported_iff.
    destruct (loss_reported pr); [reflexivity | congruence].
Qed.

End Properties.

(** ** Runs on the concrete worlds *)

(** The scenario of the specification: one fetch endpoint answering 200. *)
Example scenario_fetch_200 :
  snd (listExternalDependencyDetails (fetch_answers 200)
         (probe_answers reachable) (Some [svc_a]) [])
  = Return [svc_a_healthy].
Proof. reflexivity. Qed.

(** A ping, an unrecognized type, a fetch: one record, and no request. *)
Example truncation_run :
  listExternalDependencyDetails (fetch_answers 200) (probe_answers reachable)
    (Some [host_b; odd_c; svc_d]) []
  = ([LoggerInfo (checking_message host_b);
      PingProbe "10.0.0.2";
      LoggerInfo ("Ping results for host-b: " ++ PingResponse.output reachable);
      LoggerInfo (checking_message odd_c)],
     Return [host_b_healthy]).
Proof. reflexivity. Qed.

(** A failing fetch does not disturb the ping that follows it. *)
Example isolation_run :
  snd (listExternalDependencyDetails (fetch_fails "connect ECONNREFUSED")
         (probe_answers reachable) (Some [svc_a; host_b]) [])
  = Return [ExternalDependency.mk "svc-a" "fetch" "http://ok.example"
              Unhealthy (Some "connect ECONNREFUSED");
            host_b_healthy].
Proof. reflexivity. Qed.

Lemma unrecognized_type_truncates_witness :
  forallb recognized [host_b] = true
  /\ recognized odd_c = false
  /\ listExternalDependencyDetails (fetch_answers 200)
       (probe_answers reachable) (Some ([host_b] ++ odd_c :: [svc_d])%list) []
     = match listExternalDependencyDetails (fetch_answers 200)
               (probe_answers reachable) (Some [host_b]) [] with
       | (t', Return result) =>
           ((t' ++ [LoggerInfo (checking_message odd_c)])%list, Return result)
       | (t', Throw err) => (t', Throw err)
       end
  /\ exists t' result,
       listExternalDependencyDetails (fetch_answers 200)
         (probe_answers reachable) (Some ([host_b] ++ odd_c :: [svc_d])%list) []
       = (t', Return result)
       /\ List.length result = 1
       /\ Forall2 same_identity [host_b] result.
Proof.
  split; [reflexivity | split; [reflexivity |]].
  destruct (unrecognized_type_truncates (fetch_answers 200)
              (probe_answers reachable) [host_b] [svc_d] odd_c []
              eq_refl eq_refl) as (Heq & _ & Hreturns).
  split; [exact Heq |].
  apply Hreturns. intros h e' _ _. exists reachable. reflexivity.
Defined.

Lemma rejected_probe_aborts_the_run_witness :
  forallb recognized [svc_a; host_b; svc_d] = true
  /\ listExternalDependencyDetails (fetch_answers 200)
       (probe_fails "spawn ping ENOENT") (Some [svc_a; host_b; svc_d]) []
     = ([LoggerInfo (checking_message svc_a);
         Fetch "http://ok.example";
         LoggerInfo ("Fetch for svc-a resulted in status code "
                     ++ dquote ++ "200" ++ dquote);
         LoggerInfo (checking_message host_b);
         PingProbe "10.0.0.2"],
        Throw (mkError "spawn ping ENOENT")).
Proof.
  split; [reflexivity |].
  apply (rejected_probe_aborts_the_run (fetch_answers 200)
           (probe_fails "spawn ping ENOENT") [svc_a] [svc_d] host_b []
           [LoggerInfo (checking_message svc_a);
            Fetch "http://ok.example";
            LoggerInfo ("Fetch for svc-a resulted in status code "
                        ++ dquote ++ "200" ++ dquote)]
           [svc_a_healthy] (mkError "spawn ping ENOENT"));
    reflexivity.
Defined.

Lemma fetch_classification_witness :
  exists t' r,
    fetchExternalDependency (fetch_answers 204) svc_a [] = (t', Return r)
    /\ ExternalDependency.error r = None
    /\ (204%Z = 200%Z -> ExternalDependency.status r = Healthy)
    /\ (204%Z <> 200%Z -> ExternalDependency.status r = Unhealthy).
Proof.
  apply (fetch_classification (fetch_answers 204) svc_a (Response.mk 204) []).
  reflexivity.
Defined.

Lemma fetch_failure_is_caught_witness :
  exists t' r,
    fetchExternalDependency (fetch_fails refused_message) svc_a []
    = (t', Return r)
    /\ ExternalDependency.status r = Unhealthy
    /\ ExternalDependency.error r = Some refused_message
    /\ exists s, ExternalDependency.error r = Some s /\ s <> "".
Proof.
  apply (fetch_failure_is_caught (fetch_fails refused_message) svc_a
           (mkError refused_message) []).
  - reflexivity.
  - discriminate.
Defined.

Lemma ping_probe_failure_escapes_witness :
  pingExternalDependency (probe_fails "spawn ping ENOENT") host_b []
  = ([PingProbe "10.0.0.2"], Throw (mkError "spawn ping ENOENT"))
  /\ forall t' r,
       pingExternalDependency (probe_fails "spawn ping ENOENT") host_b []
       <> (t', Return r).
Proof.
  apply (ping_probe_failure_escapes (probe_fails "spawn ping ENOENT") host_b
           (mkError "spawn ping ENOENT") []).
  reflexivity.
Defined.

Lemma ping_error_rule_witness :
  exists t' r,
    pingExternalDependency (probe_answers unreachable) host_b []
    = (t', Return r)
    /\ ExternalDependency.error r = Some "10.0.0.2 - Unknown".
Proof.
  destruct (ping_error_rule (probe_answers unreachable) host_b unreachable []
              eq_refl) as (t' & r & E & Hloss & _).
  exists t', r. split; [exact E |].
  apply Hloss; [left |]; reflexivity.
Defined.

Lemma ping_status_follows_alive_witness :
  exists t' r,
    pingExternalDependency (probe_answers alive_loss_unknown) host_b []
    = (t', Return r)
    /\ ExternalDependency.status r = Healthy.
Proof.
  destruct (ping_status_follows_alive (probe_answers alive_loss_unknown)
              host_b alive_loss_unknown [] eq_refl) as (t' & r & E & Hst & _).
  exists t', r. split; [exact E |]. apply Hst. reflexivity.
Defined.

Lemma ping_error_is_not_empty_witness : "10.0.0.2 - Unknown" <> "".
Proof.
  apply (ping_error_is_not_empty (probe_answers unreachable) host_b []
           (fst (pingExternalDependency (probe_answers unreachable) host_b []))
           host_b_unreachable "10.0.0.2 - Unknown");
    reflexivity.
Defined.

Lemma error_only_when_unhealthy_or_loss_reported_witness :
  ExternalDependency.status host_b_unreachable = Unhealthy
  \/ (pingExternalDependency (probe_answers unreachable) host_b []
      = (fst (pingExternalDependency (probe_answers unreachable) host_b []),
         Return host_b_unreachable)
      /\ exists pingResult,
           probe_answers unreachable [] (Endpoint.target host_b)
           = Fulfilled pingResult
           /\ PingResponse.alive pingResult = true
           /\ (PingResponse.packetLoss pingResult = "100.000"
               \/ PingResponse.packetLoss pingResult = "unknown")).
Proof.
  apply (error_only_when_unhealthy_or_loss_reported (fetch_answers 200)
           (probe_answers unreachable) host_b []).
  - right. reflexivity.
  - discriminate.
Defined.

(** A probe that saw a reply and could not read the loss: the ping record
    is [Healthy] and carries an [error]. *)
Lemma healthy_ping_record_with_error :
  exists t',
    pingExternalDependency (probe_answers alive_loss_unknown) host_b []
    = (t', Return host_b_healthy_with_error)
    /\ ExternalDependency.status host_b_healthy_with_error = Healthy
    /\ ExternalDependency.error host_b_healthy_with_error
       = Some "10.0.0.2 - Unknown"
    /\ ~ (ExternalDependency.error host_b_healthy_with_error <> None ->
          ExternalDependency.status host_b_healthy_with_error = Unhealthy).
Proof.
  eexists. repeat split. intros H.
  assert (E : ExternalDependency.status host_b_healthy_with_error = Unhealthy)
    by (apply H; discriminate).
  discriminate E.
Qed.

(** ** More on the orchestrator: what a run does to the network *)

Section Runs.

Variable net_fetch : Trace -> string -> Settled Response.t.
Variable net_probe : Trace -> string -> Settled PingResponse.t.

Local Abbreviation fetchED := (fetchExternalDependency net_fetch).
Local Abbreviation pingED := (pingExternalDependency net_probe).
Local Abbreviation for_of := (for_of_endpoints net_fetch net_probe).
Local Abbreviation listEDD := (listExternalDependencyDetails net_fetch net_probe).

Ltac unfold_checker :=
  cbv [fetchExternalDependency pingExternalDependency fetch probe
       await_settled then_ catch_ bind ret logger_info logger_error nullish
       nullish_undefined].

(** The fetch checker: one request, one log line, a record. *)
Lemma fetch_run (e : Endpoint.t) (t : Trace) :
  exists line r,
    fetchED e t = ((t ++ [Fetch (Endpoint.target e); line])%list, Return r)
    /\ network_call line = false
    /\ same_identity e r.
Proof using Type.
  unfold_checker.
  destruct (net_fetch t (Endpoint.target e)) as [res | err];
    rewrite <- app_assoc; eexists _, _;
    (split; [reflexivity | split; [reflexivity | repeat split]]).
Qed.

(** The ping checker: one probe, then either log lines and a record, or
    nothing more and the probe's error. *)
Lemma ping_run (e : Endpoint.t) (t t' : Trace)
  (c : Completion ExternalDependency.t) :
  pingED e t = (t', c) ->
  match c with
  | Return r =>
      same_identity e r
      /\ exists logs,
           t' = (t ++ PingProbe (Endpoint.target e) :: logs)%list
           /\ Forall (fun ev => network_call ev = false) logs
  | Throw err =>
      net_probe t (Endpoint.target e) = Rejected err
      /\ t' = (t ++ [PingProbe (Endpoint.target e)])%list
  end.
Proof using Type.
  unfold_checker.
  destruct (net_probe t (Endpoint.target e)) as [pr | err].
  - destruct (loss_reported pr); intros E; injection E as <- <-;
      (split; [repeat split |]); eexists;
      (split; [rewrite <- !app_assoc; reflexivity | repeat constructor]).
  - intros E. injection E as <- <-. split; reflexivity.
Qed.

Lemma log_line_contacts_nothing (endpoints : list Endpoint.t) (ev : Event) :
  network_call ev = false -> contacts_only endpoints ev.
Proof.
  destruct ev; cbn; intros H; [exact I | exact I | discriminate H ..].
Qed.

Lemma contacts_only_cons (e : Endpoint.t) (endpoints : list Endpoint.t)
  (ev : Event) :
  contacts_only endpoints ev -> contacts_only (e :: endpoints) ev.
Proof.
  destruct ev; cbn; try exact (fun H => H);
    intros (e' & Hin & H); exists e'; (split; [right; exact Hin | exact H]).
Qed.

Lemma recognized_prefix_incl (endpoints : list Endpoint.t) (e : Endpoint.t) :
  In e (recognized_prefix endpoints) -> In e endpoints.
Proof.
  induction endpoints as [| e0 rest IH]; cbn; [exact (fun H => H) |].
  destruct (recognized e0); [| intros []].
  intros [H | H]; [left; exact H | right; exact (IH H)].
Qed.

Lemma recognized_prefix_all (endpoints : list Endpoint.t) :
  forallb recognized endpoints = true ->
  recognized_prefix endpoints = endpoints.
Proof.
  induction endpoints as [| e rest IH]; cbn; [reflexivity |].
  intros H. apply andb_true_iff in H as [-> H]. rewrite (IH H). reflexivity.
Qed.

Lemma filter_log_lines (logs : Trace) :
  Forall (fun ev => network_call ev = false) logs ->
  filter network_call logs = [].
Proof.
  induction 1 as [| ev logs Hev _ IH]; cbn; [reflexivity |].
  rewrite Hev. exact IH.
Qed.

(** What a run of the loop does, whichever way it ends: what it adds to the
    trace goes only to the endpoints of the recognized prefix; when it
    returns, it has pushed one record per endpoint of that prefix, in order,
    and made one network call per record; when it throws, the error is that
    of a rejected probe, which is the last thing in the trace. *)
Lemma for_of_run (endpoints : list Endpoint.t) :
  forall (result : list ExternalDependency.t) (t t' : Trace)
         (c : Completion (list ExternalDependency.t)),
    for_of endpoints result t = (t', c) ->
    exists added,
      t' = (t ++ added)%list
      /\ Forall (contacts_only (recognized_prefix endpoints)) added
      /\ match c with
         | Return out =>
             exists recs,
               out = (result ++ recs)%list
               /\ Forall2 same_identity (recognized_prefix endpoints) recs
               /\ List.length (filter network_call added) = List.length recs
         | Throw err =>
             exists e h,
               In e (recognized_prefix endpoints)
               /\ is_ping e = true
               /\ net_probe h (Endpoint.target e) = Rejected err
               /\ t' = (h ++ [PingProbe (Endpoint.target e)])%list
         end.
Proof using Type.
  induction endpoints as [| e rest IH]; intros result t t' c E.
  - injection E as <- <-. exists []. rewrite app_nil_r.
    split; [reflexivity | split; [constructor |]].
    exists []. rewrite app_nil_r. repeat split. constructor.
  - rewrite for_of_cons in E. cbv zeta in E.
    cbn [recognized_prefix]. unfold recognized.
    set (t0 := (t ++ [LoggerInfo (checking_message e)])%list) in *.
    destruct (is_ping e) eqn:Hp; [| destruct (is_fetch e) eqn:Hf]; cbn [orb].
    + destruct (pingED e t0) as [t1 [r | err]] eqn:Er;
        pose proof (ping_run e t0 t1 _ Er) as Hrun; cbn in Hrun.
      * destruct Hrun as (Hid & logs & -> & Hlogs).
        destruct (IH _ _ _ _ E) as (added & -> & Hadded & Hc).
        exists (LoggerInfo (checking_message e)
                  :: PingProbe (Endpoint.target e) :: logs ++ added)%list.
        split; [subst t0; rewrite <- !app_assoc; reflexivity |].
        split.
        -- constructor; [exact I |].
           constructor; [exists e; repeat split; [left; reflexivity | exact Hp] |].
           apply Forall_app. split.
           ++ eapply Forall_impl; [| exact Hlogs].
              intros ev. apply log_line_contacts_nothing.
           ++ eapply Forall_impl; [| exact Hadded].
              intros ev. apply contacts_only_cons.
        -- destruct c as [out | err].
           ++ destruct Hc as (recs & -> & Hrecs & Hlen).
              exists (r :: recs). rewrite <- app_assoc.
              split; [reflexivity | split; [constructor; assumption |]].
              cbn. rewrite filter_app, (filter_log_lines logs Hlogs).
              cbn. rewrite Hlen. reflexivity.
           ++ destruct Hc as (e' & h & Hin & He' & Hrej & Ht).
              exists e', h. repeat split; try assumption. right. exact Hin.
      * destruct Hrun as (Hrej & ->). injection E as <- <-.
        exists [LoggerInfo (checking_message e);
                PingProbe (Endpoint.target e)].
        split; [subst t0; rewrite <- app_assoc; reflexivity |].
        split.
        -- constructor; [exact I |].
           constructor; [| constructor].
           exists e. repeat split; [left; reflexivity | exact Hp].
        -- exists e, t0. repeat split; try assumption. left. reflexivity.
    + destruct (fetch_run e t0) as (line & r & Er & Hline & Hid).
      rewrite Er in E.
      destruct (IH _ _ _ _ E) as (added & -> & Hadded & Hc).
      exists (LoggerInfo (checking_message e)
                :: Fetch (Endpoint.target e) :: line :: added)%list.
      split; [subst t0; rewrite <- !app_assoc; reflexivity |].
      split.
      * constructor; [exact I |].
        constructor; [exists e; repeat split; [left; reflexivity | exact Hf] |].
        constructor; [apply log_line_contacts_nothing, Hline |].
        eapply Forall_impl; [| exact Hadded].
        intros ev. apply contacts_only_cons.
      * destruct c as [out | err].
        -- destruct Hc as (recs & -> & Hrecs & Hlen).
           exists (r :: recs). rewrite <- app_assoc.
           split; [reflexivity | split; [constructor; assumption |]].
           cbn. rewrite Hline. cbn. rewrite Hlen. reflexivity.
        -- destruct Hc as (e' & h & Hin & He' & Hrej & Ht).
           exists e', h. repeat split; try assumption. right. exact Hin.
    + injection E as <- <-. exists [LoggerInfo (checking_message e)].
      split; [reflexivity | split; [repeat constructor |]].
      exists []. rewrite app_nil_r. repeat split. constructor.
Qed.

(** X1.  For any endpoint list, recognized types or not: when every probe
    of a ping endpoint before the first unrecognized type is fulfilled, the
    method returns, and its records are those of the endpoints before the
    first unrecognized type, one per endpoint and in their order. *)
Theorem output_follows_recognized_prefix (endpoints : list Endpoint.t)
  (t : Trace) :
  (forall (h : Trace) (e : Endpoint.t),
      In e (recognized_prefix endpoints) -> is_ping e = true ->
      exists pr, net_probe h (Endpoint.target e) = Fulfilled pr) ->
  exists t' out,
    listEDD (Some endpoints) t = (t', Return out)
    /\ Forall2 same_identity (recognized_prefix endpoints) out.
Proof using Type.
  intros Hprobe. cbn [listExternalDependencyDetails].
  destruct (for_of endpoints [] t) as [t' [out | err]] eqn:E;
    destruct (for_of_run endpoints _ _ _ _ E) as (added & _ & _ & Hc).
  - destruct Hc as (recs & -> & Hrecs & _). exists t', recs.
    split; [reflexivity | exact Hrecs].
  - destruct Hc as (e & h & Hin & Hp & Hrej & _).
    destruct (Hprobe h e Hin Hp) as [pr Hpr]. congruence.
Qed.

(** X2.  A list of fetch endpoints only is checked to the end whatever the
    network does: the method returns one record per endpoint, in order, also
    when requests fail. *)
Theorem fetch_failures_never_abort (endpoints : list Endpoint.t) (t : Trace) :
  forallb is_fetch endpoints = true ->
  exists t' out,
    listEDD (Some endpoints) t = (t', Return out)
    /\ List.length out = List.length endpoints
    /\ Forall2 same_identity endpoints out.
Proof using Type.
  intros Hfetch. cbn [listExternalDependencyDetails].
  assert (Hrec : forallb recognized endpoints = true).
  { rewrite forallb_forall in Hfetch |- *. intros e He. unfold recognized.
    rewrite (Hfetch e He). apply orb_true_r. }
  assert (Hnoping : forall e, In e endpoints -> is_ping e = false).
  { rewrite forallb_forall in Hfetch. intros e He.
    specialize (Hfetch e He). unfold is_fetch in Hfetch. unfold is_ping.
    apply String.eqb_eq in Hfetch. rewrite Hfetch. reflexivity. }
  destruct (for_of endpoints [] t) as [t' [out | err]] eqn:E;
    destruct (for_of_run endpoints _ _ _ _ E) as (added & _ & _ & Hc).
  - destruct Hc as (recs & -> & Hrecs & _).
    rewrite (recognized_prefix_all endpoints Hrec) in Hrecs.
    exists t', recs. split; [reflexivity |].
    split; [symmetry; eapply Forall2_length; exact Hrecs | exact Hrecs].
  - destruct Hc as (e & h & Hin & Hp & _).
    apply recognized_prefix_incl in Hin.
    rewrite (Hnoping e Hin) in Hp. discriminate Hp.
Qed.

(** X3.  The method throws only the error of a rejected probe of one of its
    ping endpoints, and the probe is the last thing it did: the failure is
    not logged. *)
Theorem run_throws_only_a_rejected_probe (endpoints : list Endpoint.t)
  (t t' : Trace) (err : Error) :
  listEDD (Some endpoints) t = (t', Throw err) ->
  exists e h,
    In e endpoints
    /\ is_ping e = true
    /\ net_probe h (Endpoint.target e) = Rejected err
    /\ t' = (h ++ [PingProbe (Endpoint.target e)])%list.
Proof using Type.
  cbn [listExternalDependencyDetails]. intros E.
  destruct (for_of_run endpoints _ _ _ _ E)
    as (added & _ & _ & e & h & Hin & Hp & Hrej & Ht).
  exists e, h. repeat split; try assumption.
  apply recognized_prefix_incl, Hin.
Qed.

(** X4.  Whichever way a run ends, it only adds to the trace, and every
    call of [fetch] and of the probe that it adds is a call on the target of
    a configured endpoint that stands before the first unrecognized type:
    [fetch] on the target of a fetch endpoint, the probe on the target of a
    ping endpoint.  The method passes no other address to either. *)
Theorem calls_only_configured_targets (endpoints : list Endpoint.t)
  (t : Trace) :
  exists added,
    fst (listEDD (Some endpoints) t) = (t ++ added)%list
    /\ Forall (contacts_only (recognized_prefix endpoints)) added.
Proof using Type.
  cbn [listExternalDependencyDetails].
  destruct (for_of endpoints [] t) as [t' c] eqn:E.
  destruct (for_of_run endpoints _ _ _ _ E) as (added & -> & Hadded & _).
  exists added. split; [reflexivity | exact Hadded].
Qed.

(** X5.  A run that returns has made exactly one network call, request or
    probe, per record it returns: no check is tried twice. *)
Theorem one_network_call_per_record (endpoints : list Endpoint.t)
  (t t' : Trace) (out : list ExternalDependency.t) :
  listEDD (Some endpoints) t = (t', Return out) ->
  List.length (filter network_call t')
  = List.length (filter network_call t) + List.length out.
Proof using Type.
  cbn [listExternalDependencyDetails]. intros E.
  destruct (for_of_run endpoints _ _ _ _ E)
    as (added & -> & _ & recs & -> & _ & Hlen).
  rewrite filter_app, length_app, Hlen. reflexivity.
Qed.

(** X6.  The fetch checker returns a record for its endpoint whatever the
    network does.  The record is [Healthy] exactly when the request was
    answered with the status code 200, and it carries an [error] exactly
    when the request failed. *)
Theorem fetch_checker_always_returns (e : Endpoint.t) (t : Trace) :
  exists t' r,
    fetchED e t = (t', Return r)
    /\ same_identity e r
    /\ (ExternalDependency.status r = Healthy <->
        exists res, net_fetch t (Endpoint.target e) = Fulfilled res
                    /\ Response.status res = 200%Z)
    /\ (ExternalDependency.error r <> None <->
        exists err, net_fetch t (Endpoint.target e) = Rejected err).
Proof using Type.
  destruct (net_fetch t (Endpoint.target e)) as [res | err] eqn:H.
  - destruct (fetch_fulfilled net_fetch e res t H) as [t' E].
    eexists _, _. split; [exact E |]. cbn. split; [repeat split |]. split.
    + destruct (Z.eqb_spec (Response.status res) 200) as [H200 | H200]; split.
      * intros _. exists res. split; [reflexivity | exact H200].
      * reflexivity.
      * discriminate.
      * intros (res' & Hres & H'). congruence.
    + split; [congruence | intros (err & Herr); discriminate Herr].
  - destruct (fetch_rejected net_fetch e err t H) as [t' E].
    eexists _, _. split; [exact E |]. cbn. split; [repeat split |]. split.
    + split; [discriminate | intros (res & Hres & _); discriminate Hres].
    + split; [intros _; exists err; reflexivity | discriminate].
Qed.

End Runs.

(** ** Host information *)

(** *** Sets of versions *)

Lemma existsb_eqb_In (v : string) (s : list string) :
  existsb (String.eqb v) s = true <-> In v s.
Proof.
  rewrite existsb_exists. split.
  - intros (x & Hin & Heq). apply String.eqb_eq in Heq. subst x. exact Hin.
  - intros Hin. exists v. split; [exact Hin | apply String.eqb_refl].
Qed.

Lemma Set_add_In (s : list string) (v x : string) :
  In x (Set_add s v) <-> In x s \/ x = v.
Proof.
  unfold Set_add. destruct (existsb (String.eqb v) s) eqn:E.
  - apply existsb_eqb_In in E. split; [auto |].
    intros [H | ->]; assumption.
  - rewrite in_app_iff. cbn. intuition auto.
Qed.

Lemma Set_add_NoDup (s : list string) (v : string) :
  NoDup s -> NoDup (Set_add s v).
Proof.
  intros Hs. unfold Set_add. destruct (existsb (String.eqb v) s) eqn:E.
  - exact Hs.
  - apply NoDup_app; [exact Hs | repeat constructor; intros [] |].
    intros x Hx [<- | []]. apply existsb_eqb_In in Hx. congruence.
Qed.

Lemma fold_Set_add_In (values s : list string) (x : string) :
  In x (fold_left Set_add values s) <-> In x s \/ In x values.
Proof.
  revert s. induction values as [| v values IH]; intros s; cbn.
  - tauto.
  - rewrite IH, Set_add_In. intuition auto.
Qed.

Lemma fold_Set_add_NoDup (values s : list string) :
  NoDup s -> NoDup (fold_left Set_add values s).
Proof.
  revert s. induction values as [| v values IH]; intros s Hs; cbn.
  - exact Hs.
  - apply IH, Set_add_NoDup, Hs.
Qed.

(** Adding again what is there changes nothing. *)
Lemma fold_Set_add_same (values : list string) (v : string) :
  (forall x, In x values -> x = v) ->
  fold_left Set_add values [v] = [v].
Proof.
  induction values as [| x values IH]; intros Hall; cbn; [reflexivity |].
  rewrite (Hall x (or_introl eq_refl)). unfold Set_add at 2. cbn.
  rewrite String.eqb_refl. cbn. apply IH.
  intros y Hy. apply Hall. right. exact Hy.
Qed.

(** *** The lockfile *)

Lemma lookup_of_key (name : string)
  (table : list (string * list LockfileQueryEntry.t)) :
  In name (map fst table) ->
  exists entries, Lockfile.lookup name table = Some entries.
Proof.
  induction table as [| [key entries] table IH]; cbn; [intros [] |].
  intros Hin. destruct (String.eqb_spec key name) as [Heq | Hne].
  - exists entries. reflexivity.
  - destruct Hin as [Heq | Hin]; [contradiction | exact (IH Hin)].
Qed.

(** Over names that are keys of the lockfile the loop returns, having
    pushed one entry per name, in order. *)
Lemma for_of_deps_keys (lockfile : Lockfile.t) (deps : list string) :
  (forall dep, In dep deps -> In dep (Lockfile.keys lockfile)) ->
  forall infoDependencies,
    exists added,
      for_of_deps lockfile deps infoDependencies
      = Return (infoDependencies ++ added)%list
      /\ map PackageDependency.name added = deps
      /\ Forall (listed lockfile) added.
Proof.
  induction deps as [| dep deps IH]; intros Hkeys acc.
  - exists []. rewrite app_nil_r. repeat split. constructor.
  - cbn [for_of_deps].
    destruct (lookup_of_key dep (Lockfile.packages lockfile)
                (Hkeys dep (or_introl eq_refl))) as [entries Hget].
    unfold Lockfile.get at 1. rewrite Hget.
    destruct (IH (fun d Hd => Hkeys d (or_intror Hd))
                 (acc ++ [{| PackageDependency.name := dep;
                             PackageDependency.versions :=
                               join ", " (Set_new (map LockfileQueryEntry.version
                                                       entries)) |}])%list)
      as (added & -> & Hnames & Hlisted).
    eexists (_ :: added). rewrite <- app_assoc. split; [reflexivity |].
    split; [cbn; rewrite Hnames; reflexivity |].
    constructor; [| exact Hlisted].
    exists entries. split; [exact Hget | reflexivity].
Qed.

(** *** [listInfo] *)

Section InfoProperties.

Variable Number : Type.
Variable number_truthy : Number -> bool.

Local Abbreviation Json := (JsonValue Number).
Local Abbreviation truthy_ := (truthy Number number_truthy).
Local Abbreviation listInfo_ := (listInfo Number number_truthy).

(** The version expression never throws, and never gives a falsy value. *)
Lemma backstage_version_returns (backstageJson : option Json) :
  exists v,
    backstage_version Number number_truthy backstageJson = Return v
    /\ truthy_ v = true
    /\ (v = JString "N/A"
        \/ exists fields,
             backstageJson = Some (JObject fields)
             /\ field Number "version" fields = Some v).
Proof using Type.
  assert (Hna : forall c : Completion Json,
            c = Return (JString "N/A") ->
            exists v, c = Return v /\ truthy_ v = true
                      /\ (v = JString "N/A"
                          \/ exists fields,
                               backstageJson = Some (JObject fields)
                               /\ field Number "version" fields = Some v))
    by (intros c ->; exists (JString "N/A"); auto).
  destruct backstageJson as [json |]; [| apply Hna; reflexivity].
  destruct json as [| b | n | s | items | fields]; cbn.
  - apply Hna. reflexivity.
  - apply Hna. destruct b; reflexivity.
  - apply Hna. destruct (number_truthy n); reflexivity.
  - apply Hna. destruct (negb (s =? "")); reflexivity.
  - apply Hna. reflexivity.
  - destruct (field Number "version" fields) as [v |] eqn:Hf;
      [| apply Hna; reflexivity].
    destruct (truthy_ v) eqn:Hv; [| apply Hna; reflexivity].
    exists v. split; [reflexivity | split; [exact Hv |]].
    right. exists fields. auto.
Qed.

Lemma filter_keys_are_keys (lockfile : Lockfile.t) (dep : string) :
  In dep (filter is_backstage_package (Lockfile.keys lockfile)) ->
  In dep (Lockfile.keys lockfile).
Proof.
  intros H. apply filter_In in H. exact (proj1 H).
Qed.

(** How [listInfo] ends, by what it read. *)
Lemma listInfo_cases (host : Host Number) :
  match listInfo_ host with
  | Return info =>
      exists backstageJson lockfile,
        backstage_json_read Number host backstageJson
        /\ Lockfile_load Number host = Fulfilled lockfile
        /\ backstage_version Number number_truthy backstageJson
           = Return (backstageVersion info)
        /\ map PackageDependency.name (dependencies info)
           = filter is_backstage_package (Lockfile.keys lockfile)
        /\ Forall (listed lockfile) (dependencies info)
  | Throw err =>
      (fs_existsSync Number host = true
       /\ (fs_readFile Number host = Rejected err
           \/ exists text,
                fs_readFile Number host = Fulfilled text
                /\ JSON_parse Number host text = Throw err))
      \/ ((exists backstageJson, backstage_json_read Number host backstageJson)
          /\ Lockfile_load Number host = Rejected err)
  end.
Proof using Type.
  unfold listInfo, backstage_json_read.
  assert (Hloop : forall lockfile,
    exists added,
      for_of_deps lockfile
        (filter is_backstage_package (Lockfile.keys lockfile)) []
      = Return added
      /\ map PackageDependency.name added
         = filter is_backstage_package (Lockfile.keys lockfile)
      /\ Forall (listed lockfile) added).
  { intros lockfile.
    destruct (for_of_deps_keys lockfile _ (filter_keys_are_keys lockfile) [])
      as (added & E & Hn & Hl).
    exists added. auto. }
  destruct (fs_existsSync Number host) eqn:Hex.
  - destruct (fs_readFile Number host) as [text | e1] eqn:Hread;
      cbn [and_then await]; [| left; auto].
    destruct (JSON_parse Number host text) as [json | e2] eqn:Hparse;
      cbn [and_then await];
      [| left; split; [reflexivity | right; exists text; auto]].
    destruct (Lockfile_load Number host) as [lockfile | e3] eqn:Hload;
      cbn [and_then await].
    + destruct (Hloop lockfile) as (added & -> & Hn & Hl).
      cbn [and_then].
      destruct (backstage_version_returns (Some json)) as (v & Hv & _).
      rewrite Hv. cbn [and_then backstageVersion dependencies].
      exists (Some json), lockfile. repeat split; try assumption.
      right. split; [reflexivity |]. exists text, json. auto.
    + right. split; [| reflexivity].
      exists (Some json). right. split; [reflexivity |].
      exists text, json. auto.
  - cbn [and_then await].
    destruct (Lockfile_load Number host) as [lockfile | e3] eqn:Hload;
      cbn [and_then await].
    + destruct (Hloop lockfile) as (added & -> & Hn & Hl).
      cbn [and_then].
      destruct (backstage_version_returns None) as (v & Hv & _).
      rewrite Hv. cbn [and_then backstageVersion dependencies].
      exists None, lockfile. repeat split; try assumption. left. auto.
    + right. split; [| reflexivity]. exists None. left. auto.
Qed.

(** X7.  When backstage.json is absent or parses, and the lockfile loads,
    [listInfo] returns, and the packages it lists are the keys of the
    lockfile that start with '@backstage/', each once and in the order of
    the lockfile: [lockfile.get(dep)!] is never [undefined]. *)
Theorem listInfo_lists_backstage_packages (host : Host Number)
  (lockfile : Lockfile.t) :
  (exists backstageJson, backstage_json_read Number host backstageJson) ->
  Lockfile_load Number host = Fulfilled lockfile ->
  exists info,
    listInfo_ host = Return info
    /\ map PackageDependency.name (dependencies info)
       = filter is_backstage_package (Lockfile.keys lockfile).
Proof using Type.
  intros [bj Hread] Hload. pose proof (listInfo_cases host) as H.
  destruct (listInfo_ host) as [info | err].
  - destruct H as (bj' & lockfile' & _ & Hload' & _ & Hnames & _).
    exists info. split; [reflexivity |].
    rewrite Hload in Hload'. injection Hload' as <-. exact Hnames.
  - exfalso. destruct H as [[Hex Hfail] | [_ Hrej]]; [| congruence].
    destruct Hread as [[Hno _] | (_ & text & json & Ht & Hj & _)];
      [congruence |].
    destruct Hfail as [Hrej | (text' & Ht' & Hthrow)]; [congruence |].
    rewrite Ht in Ht'. injection Ht' as <-. congruence.
Qed.

(** X8.  The [versions] of a listed package are the versions of its lockfile
    entries, joined with ', ': each version that an entry resolves to is
    there, and none is there twice. *)
Theorem listInfo_versions_are_distinct (host : Host Number)
  (info : DevToolsInfo Number) (d : PackageDependency.t) :
  listInfo_ host = Return info ->
  In d (dependencies info) ->
  exists lockfile entries versions,
    Lockfile_load Number host = Fulfilled lockfile
    /\ Lockfile.get lockfile (PackageDependency.name d) = Some entries
    /\ PackageDependency.versions d = join ", " versions
    /\ NoDup versions
    /\ forall v, In v versions
                 <-> In v (map LockfileQueryEntry.version entries).
Proof using Type.
  intros E Hd. pose proof (listInfo_cases host) as H. rewrite E in H.
  destruct H as (bj & lockfile & _ & Hload & _ & _ & Hlisted).
  rewrite Forall_forall in Hlisted.
  destruct (Hlisted d Hd) as (entries & Hget & Hversions).
  exists lockfile, entries,
    (Set_new (map LockfileQueryEntry.version entries)).
  repeat split; try assumption.
  - apply fold_Set_add_NoDup. constructor.
  - intros Hv. apply fold_Set_add_In in Hv as [[] | Hv]. exact Hv.
  - intros Hv. apply fold_Set_add_In. right. exact Hv.
Qed.

(** X9.  A listed package whose lockfile entries all resolve to one version
    shows exactly that version, with no separator. *)
Theorem listInfo_single_version (host : Host Number)
  (info : DevToolsInfo Number) (lockfile : Lockfile.t)
  (d : PackageDependency.t) (entries : list LockfileQueryEntry.t)
  (v : string) :
  listInfo_ host = Return info ->
  Lockfile_load Number host = Fulfilled lockfile ->
  In d (dependencies info) ->
  Lockfile.get lockfile (PackageDependency.name d) = Some entries ->
  entries <> [] ->
  (forall entry, In entry entries -> LockfileQueryEntry.version entry = v) ->
  PackageDependency.versions d = v.
Proof using Type.
  intros E Hload Hd Hget Hne Hall.
  pose proof (listInfo_cases host) as H. rewrite E in H.
  destruct H as (bj & lockfile' & _ & Hload' & _ & _ & Hlisted).
  rewrite Hload in Hload'. injection Hload' as <-.
  rewrite Forall_forall in Hlisted.
  destruct (Hlisted d Hd) as (entries' & Hget' & ->).
  rewrite Hget in Hget'. injection Hget' as <-.
  destruct entries as [| entry rest]; [contradiction Hne; reflexivity |].
  unfold Set_new. cbn [map fold_left]. unfold Set_add at 2. cbn [existsb app].
  rewrite (Hall entry (or_introl eq_refl)), fold_Set_add_same.
  - cbn. reflexivity.
  - intros x Hx. apply in_map_iff in Hx as (entry' & <- & Hin).
    apply Hall. right. exact Hin.
Qed.

(** X10.  The [backstageVersion] that [listInfo] returns is never a falsy
    value.  It is 'N/A' when there is no backstage.json; in any case it is
    'N/A' or the [version] field of the object parsed from the file. *)
Theorem listInfo_backstage_version (host : Host Number)
  (info : DevToolsInfo Number) :
  listInfo_ host = Return info ->
  truthy_ (backstageVersion info) = true
  /\ (fs_existsSync Number host = false ->
      backstageVersion info = JString "N/A")
  /\ (backstageVersion info = JString "N/A"
      \/ exists text fields,
           fs_readFile Number host = Fulfilled text
           /\ JSON_parse Number host text = Return (JObject fields)
           /\ field Number "version" fields = Some (backstageVersion info)).
Proof using Type.
  intros E. pose proof (listInfo_cases host) as H. rewrite E in H.
  destruct H as (bj & lockfile & Hread & _ & Hversion & _).
  destruct (backstage_version_returns bj) as (v & Hv & Htruthy & Hcases).
  rewrite Hversion in Hv. injection Hv as <-.
  split; [exact Htruthy |]. split.
  - intros Hno.
    destruct Hread as [[_ ->] | [Hyes _]]; [| congruence].
    cbn in Hversion. injection Hversion as <-. reflexivity.
  - destruct Hcases as [Hna | (fields & Hbj & Hfield)]; [left; exact Hna |].
    right.
    destruct Hread as [[_ Hnone] | (_ & text & json & Ht & Hj & Hsome)];
      [congruence |].
    exists text, fields. rewrite Hsome in Hbj. injection Hbj as ->. auto.
Qed.

(** X11.  [listInfo] throws an error exactly when reading or parsing an
    existing backstage.json fails with it, or when that went well and
    loading the lockfile fails with it; it throws nothing of its own. *)
Theorem listInfo_throws_what_reading_throws (host : Host Number)
  (err : Error) :
  listInfo_ host = Throw err
  <-> (fs_existsSync Number host = true
       /\ (fs_readFile Number host = Rejected err
           \/ exists text,
                fs_readFile Number host = Fulfilled text
                /\ JSON_parse Number host text = Throw err))
      \/ ((exists backstageJson, backstage_json_read Number host backstageJson)
          /\ Lockfile_load Number host = Rejected err).
Proof using Type.
  split.
  - intros E. pose proof (listInfo_cases host) as H. rewrite E in H. exact H.
  - unfold listInfo.
    intros [[Hex [Hrej | (text & Ht & Hthrow)]] | [[bj Hread] Hload]].
    + rewrite Hex, Hrej. reflexivity.
    + rewrite Hex, Ht. cbn [and_then await]. rewrite Hthrow. reflexivity.
    + destruct Hread as [[Hno _] | (Hyes & text & json & Ht & Hj & _)].
      * rewrite Hno, Hload. reflexivity.
      * rewrite Hyes, Ht. cbn [and_then await]. rewrite Hj, Hload.
        reflexivity.
Qed.

End InfoProperties.

(** ** More runs on the concrete worlds and hosts *)

Example listInfo_portal_host : listInfo Z Z_truthy portal_host = Return portal_info.
Proof. reflexivity. Qed.

Example listInfo_broken_json :
  listInfo Z Z_truthy host_with_broken_backstage_json
  = Throw (mkError "Unexpected token in JSON").
Proof. reflexivity. Qed.

Lemma output_follows_recognized_prefix_witness :
  exists t' out,
    listExternalDependencyDetails (fetch_fails "connect ECONNREFUSED")
      (probe_answers reachable) (Some [svc_a; host_b; odd_c; svc_d]) []
    = (t', Return out)
    /\ Forall2 same_identity [svc_a; host_b] out.
Proof.
  apply (output_follows_recognized_prefix (fetch_fails "connect ECONNREFUSED")
           (probe_answers reachable) [svc_a; host_b; odd_c; svc_d] []).
  intros h e _ _. exists reachable. reflexivity.
Defined.

Lemma fetch_failures_never_abort_witness :
  exists t' out,
    listExternalDependencyDetails (fetch_fails "connect ECONNREFUSED")
      (probe_fails "spawn ping ENOENT") (Some [svc_a; svc_d]) []
    = (t', Return out)
    /\ List.length out = 2
    /\ Forall2 same_identity [svc_a; svc_d] out.
Proof.
  apply (fetch_failures_never_abort (fetch_fails "connect ECONNREFUSED")
           (probe_fails "spawn ping ENOENT") [svc_a; svc_d] []).
  reflexivity.
Defined.

Lemma run_throws_only_a_rejected_probe_witness :
  exists e h,
    In e [svc_a; host_b; svc_d]
    /\ is_ping e = true
    /\ probe_fails "spawn ping ENOENT" h (Endpoint.target e)
       = Rejected (mkError "spawn ping ENOENT")
    /\ fst (listExternalDependencyDetails (fetch_answers 200)
              (probe_fails "spawn ping ENOENT")
              (Some [svc_a; host_b; svc_d]) [])
       = (h ++ [PingProbe (Endpoint.target e)])%list.
Proof.
  apply (run_throws_only_a_rejected_probe (fetch_answers 200)
           (probe_fails "spawn ping ENOENT") [svc_a; host_b; svc_d] []).
  reflexivity.
Defined.

Lemma one_network_call_per_record_witness :
  List.length
    (filter network_call
       (fst (listExternalDependencyDetails (fetch_answers 200)
               (probe_answers reachable) (Some [svc_a; host_b; odd_c]) [])))
  = 0 + 2.
Proof.
  apply (one_network_call_per_record (fetch_answers 200)
           (probe_answers reachable) [svc_a; host_b; odd_c] []
           _ [svc_a_healthy; host_b_healthy]).
  reflexivity.
Defined.

Lemma listInfo_lists_backstage_packages_witness :
  exists info,
    listInfo Z Z_truthy portal_host = Return info
    /\ map PackageDependency.name (dependencies info)
       = ["@backstage/config"; "@backstage/types"].
Proof.
  apply (listInfo_lists_backstage_packages Z Z_truthy portal_host yarn_lock).
  - exists (Some (JObject [("version", JString "1.12.0")])).
    right. split; [reflexivity |].
    exists backstage_json_text, (JObject [("version", JString "1.12.0")]).
    repeat split.
  - reflexivity.
Defined.

Lemma listInfo_versions_are_distinct_witness :
  exists lockfile entries versions,
    Lockfile_load Z portal_host = Fulfilled lockfile
    /\ Lockfile.get lockfile "@backstage/types" = Some entries
    /\ "1.0.2, 0.1.3" = join ", " versions
    /\ NoDup versions
    /\ forall v, In v versions
                 <-> In v (map LockfileQueryEntry.version entries).
Proof.
  apply (listInfo_versions_are_distinct Z Z_truthy portal_host portal_info
           types_dependency).
  - reflexivity.
  - right. left. reflexivity.
Defined.

Lemma listInfo_single_version_witness :
  PackageDependency.versions config_dependency = "1.0.7".
Proof.
  apply (listInfo_single_version Z Z_truthy portal_host portal_info yarn_lock
           config_dependency
           [LockfileQueryEntry.mk "^1.0.0" "1.0.7";
            LockfileQueryEntry.mk "^1.0.7" "1.0.7"] "1.0.7").
  - reflexivity.
  - reflexivity.
  - left. reflexivity.
  - reflexivity.
  - discriminate.
  - intros entry [<- | [<- | []]]; reflexivity.
Defined.

Lemma listInfo_backstage_version_witness :
  truthy Z Z_truthy (JString "1.12.0") = true
  /\ (fs_existsSync Z portal_host = false ->
      @JString Z "1.12.0" = JString "N/A")
  /\ (@JString Z "1.12.0" = JString "N/A"
      \/ exists text fields,
           fs_readFile Z portal_host = Fulfilled text
           /\ JSON_parse Z portal_host text = Return (JObject fields)
           /\ field Z "version" fields = Some (JString "1.12.0")).
Proof.
  apply (listInfo_backstage_version Z Z_truthy portal_host portal_info).
  reflexivity.
Defined.
